(** * WQM client: the form / evaluation-service boundary

    A shallow embedding of the water-quality form
    ([client/src/components/WaterQualityForm.jsx], two revisions of its
    handlers), of the evaluation client ([evaluateWaterQuality]) and of
    the [App] component that holds the last result. *)

From Stdlib Require Import ZArith Ascii String List.
From stdpp Require Import gmap strings list fin_maps.

Local Open Scope string_scope.
Local Open Scope Z_scope.
Local Open Scope list_scope.

(** ** JavaScript numbers and [parseFloat]

    A number is [NaN], an infinity, or a finite decimal [m * 10^e] kept
    in lowest terms (no trailing zero in [m]; zero is [Finite 0 0], so
    [-0] and [0], which [===] and [||] cannot tell apart, coincide).
    The value carried is the exact mathematical value of the literal;
    the rounding to binary64 that the engine applies afterwards is a
    function of that value and is not part of the model. *)

Inductive number : Type :=
  | NaN
  | Infinity (negative : bool)
  | Finite (m e : Z).

Global Instance number_eq_dec : EqDecision number.
Proof. solve_decision. Defined.

Module Js.

(** [normalise fuel m e]: strip trailing decimal zeros of [m]. *)
Fixpoint normalise (fuel : nat) (m e : Z) : number :=
  match fuel with
  | O => Finite m e
  | S fuel' =>
      if m =? 0 then Finite 0 0
      else if m mod 10 =? 0 then normalise fuel' (m / 10) (e + 1)
      else Finite m e
  end.

Definition is_digit (c : ascii) : bool :=
  let n := nat_of_ascii c in ((48 <=? n) && (n <=? 57))%nat.

Definition digit_value (c : ascii) : Z := Z.of_nat (nat_of_ascii c) - 48.

(** StrWhiteSpaceChar, ASCII part: TAB, LF, VT, FF, CR, SP. *)
Definition is_white_space (c : ascii) : bool :=
  let n := nat_of_ascii c in
  ((n =? 9) || (n =? 10) || (n =? 11) || (n =? 12) || (n =? 13) || (n =? 32))%nat.

Fixpoint trim_start (s : string) : string :=
  match s with
  | String c r => if is_white_space c then trim_start r else s
  | EmptyString => s
  end.

(** Longest run of decimal digits at the head of [s], and what follows. *)
Fixpoint span_digits (s : string) : list ascii * string :=
  match s with
  | String c r =>
      if is_digit c then let '(ds, rest) := span_digits r in (c :: ds, rest)
      else ([], s)
  | EmptyString => ([], s)
  end.

Definition digits_value (ds : list ascii) : Z :=
  fold_left (fun acc c => 10 * acc + digit_value c) ds 0.

(** ExponentPart: [e] or [E], an optional sign, at least one digit.
    Anything else is no exponent (the literal ends before it). *)
Definition exponent_part (s : string) : Z :=
  match s with
  | String c r =>
      if (Ascii.eqb c "e" || Ascii.eqb c "E")%bool then
        let '(neg, u) :=
          match r with
          | String "+" u => (false, u)
          | String "-" u => (true, u)
          | _ => (false, r)
          end in
        match fst (span_digits u) with
        | [] => 0
        | ds => if neg then - digits_value ds else digits_value ds
        end
      else 0
  | EmptyString => 0
  end.

(** [parseFloat]: trim leading white space, then read the longest
    prefix that is a StrDecimalLiteral; [NaN] when there is none. *)
Definition parseFloat (s : string) : number :=
  let t := trim_start s in
  let '(neg, u) :=
    match t with
    | String "+" r => (false, r)
    | String "-" r => (true, r)
    | _ => (false, t)
    end in
  if String.prefix "Infinity" u then Infinity neg
  else
    let '(ip, r1) := span_digits u in
    let '(fp, r2) :=
      match r1 with
      | String "." r => span_digits r
      | _ => ([], r1)
      end in
    match (ip ++ fp)%list with
    | [] => NaN
    | ds =>
        let m := digits_value ds in
        let e := exponent_part r2 - Z.of_nat (length fp) in
        normalise (length ds) (if neg then - m else m) e
    end.

End Js.

(** ** Values held by the form and sent on the wire *)

Inductive jsval : Type :=
  | Null
  | Str (s : string)
  | Num (n : number).

Global Instance jsval_eq_dec : EqDecision jsval.
Proof. solve_decision. Defined.

(** [a === b]. [NaN] is not equal to itself. *)
Definition strict_eq (a b : jsval) : bool :=
  match a, b with
  | Null, Null => true
  | Str s, Str t => bool_decide (s = t)
  | Num NaN, Num _ | Num _, Num NaN => false
  | Num x, Num y => bool_decide (x = y)
  | _, _ => false
  end.

(** ToBoolean: [null], [''], [0] and [NaN] are falsy. *)
Definition truthy (v : jsval) : bool :=
  match v with
  | Null => false
  | Str s => negb (bool_decide (s = ""))
  | Num NaN => false
  | Num (Finite m _) => negb (m =? 0)
  | Num (Infinity _) => true
  end.

(** [x || d] for an optional string property [x] ([None] is [undefined]). *)
Definition or_default (x : option string) (d : string) : string :=
  match x with
  | Some s => if truthy (Str s) then s else d
  | None => d
  end.

(** ** The wire contract with the evaluation service

    The service is external; the shapes of its bodies are those of the
    interface description: a success body is an evaluation result, a
    failure body may carry a [detail] string. *)

Record EvaluationResult : Type := {
  quality_score : number;
  report : string;
  graph : string;
}.

Record ErrorBody : Type := { detail : option string }.

Record Response (A : Type) : Type := { status : Z; data : A }.
Arguments status {A} _.
Arguments data {A} _.

Inductive XMLHttpRequest : Type := ClientRequest.

(** A thrown value: what [axios] rejects with (it may carry [response]
    and [request]) and what [new Error(msg)] builds (it carries
    neither). *)
Record Error : Type := {
  message : string;
  response : option (Response ErrorBody);
  request : option XMLHttpRequest;
}.

Definition new_Error (msg : string) : Error :=
  {| message := msg; response := None; request := None |}.

(** How the promise returned by [axios.post] settles. *)
Inductive Settled : Type :=
  | Fulfilled (r : Response EvaluationResult)
  | Rejected (e : Error).

(** ** State, effects and the monad of handlers *)

Inductive Effect : Type :=
  | PreventDefault
  | SetFormData (d : gmap string jsval)
  | SetError (s : string)
  | SetLoading (b : bool)
  | SetEvaluationResult (r : EvaluationResult)
  | Post (url : string) (body : gmap string jsval)
  | ConsoleError (label : string) (e : Error).

(** The three [useState] cells of the form, the one of [App], the
    effects performed so far (oldest first) and the environment:
    [network k] is how the [k]-th call of [axios.post] settles. *)
Record World : Type := {
  formData : gmap string jsval;
  error : string;
  loading : bool;
  evaluationResult : option EvaluationResult;
  trace : list Effect;
  network : nat -> Settled;
}.

Definition initial (net : nat -> Settled) : World :=
  {| formData := ∅; error := ""; loading := false;
     evaluationResult := None; trace := []; network := net |}.

Inductive Completion (A : Type) : Type :=
  | Normal (a : A)
  | Throw (e : Error).
Arguments Normal {A} a.
Arguments Throw {A} e.

Definition Task (A : Type) : Type := World -> Completion A * World.

Global Instance Task_ret : MRet Task := fun A a w => (Normal a, w).

Global Instance Task_bind : MBind Task := fun A B k m w =>
  match m w with
  | (Normal a, w') => k a w'
  | (Throw e, w') => (Throw e, w')
  end.

Definition throw {A : Type} (e : Error) : Task A := fun w => (Throw e, w).

(** [try { body } catch (err) { handler err }] *)
Definition try_catch {A : Type} (body : Task A) (handler : Error -> Task A) : Task A :=
  fun w =>
    match body w with
    | (Normal a, w') => (Normal a, w')
    | (Throw e, w') => handler e w'
    end.

(** [try { body } finally { fin }] *)
Definition try_finally {A : Type} (body : Task A) (fin : Task unit) : Task A :=
  fun w =>
    let '(c, w1) := body w in
    match fin w1 with
    | (Normal _, w2) => (c, w2)
    | (Throw e, w2) => (Throw e, w2)
    end.

Definition log (e : Effect) (w : World) : World :=
  {| formData := formData w; error := error w; loading := loading w;
     evaluationResult := evaluationResult w;
     trace := trace w ++ [e]; network := network w |}.

Definition emit (e : Effect) : Task unit := fun w => (Normal tt, log e w).

Definition read {A : Type} (f : World -> A) : Task A := fun w => (Normal (f w), w).

Definition setFormData (d : gmap string jsval) : Task unit := fun w =>
  (Normal tt,
   log (SetFormData d)
     {| formData := d; error := error w; loading := loading w;
        evaluationResult := evaluationResult w;
        trace := trace w; network := network w |}).

Definition setError (s : string) : Task unit := fun w =>
  (Normal tt,
   log (SetError s)
     {| formData := formData w; error := s; loading := loading w;
        evaluationResult := evaluationResult w;
        trace := trace w; network := network w |}).

Definition setLoading (b : bool) : Task unit := fun w =>
  (Normal tt,
   log (SetLoading b)
     {| formData := formData w; error := error w; loading := b;
        evaluationResult := evaluationResult w;
        trace := trace w; network := network w |}).

Definition setEvaluationResult (r : EvaluationResult) : Task unit := fun w =>
  (Normal tt,
   log (SetEvaluationResult r)
     {| formData := formData w; error := error w; loading := loading w;
        evaluationResult := Some r;
        trace := trace w; network := network w |}).

(** The calls of [axios.post] recorded in a trace, oldest first. *)
Definition sent (t : list Effect) : list (string * gmap string jsval) :=
  omap (fun e => match e with Post url body => Some (url, body) | _ => None end) t.

(** [await axios.post(url, body)]: the call is recorded, and the promise
    settles as the environment decides for this call. *)
Definition axios_post (url : string) (body : gmap string jsval)
  : Task (Response EvaluationResult) := fun w =>
  let w' := log (Post url body) w in
  match network w (length (sent (trace w))) with
  | Fulfilled r => (Normal r, w')
  | Rejected e => (Throw e, w')
  end.

(** ** The evaluation client ([services/api]) *)

Definition evaluateWaterQuality (data_ : gmap string jsval) : Task EvaluationResult :=
  try_catch
    (response_ ← axios_post "/evaluate" data_;
     mret (data response_))
    (fun error_ =>
       emit (ConsoleError "Error evaluating water quality:" error_);;
       match response error_ with
       | Some r =>
           throw (new_Error
                    (or_default (detail (data r))
                       "An error occurred while evaluating water quality."))
       | None =>
           match request error_ with
           | Some _ =>
               throw (new_Error
                        "The server did not respond. Please check your connection.")
           | None =>
               throw (new_Error
                        "An error occurred while setting up the request.")
           end
       end).

(** ** What the form renders *)

(** [x || d] for an entry [x] of the form state ([None] is [undefined]). *)
Definition or_value (x : option jsval) (d : jsval) : jsval :=
  match x with
  | Some v => if truthy v then v else d
  | None => d
  end.

(** The props every [TextField] of the form receives ([None] is a prop
    that is [undefined]). *)
Module TextField.
Record props : Type := {
  label : string;
  name : string;
  type : option string;
  value : option jsval;
}.
End TextField.

(** The submit [Button]: its [disabled] prop and its text. *)
Module Button.
Record props : Type := { disabled : bool; children : string }.
End Button.

(** The parts of the rendered form that depend on the state. *)
Record FormView : Type := {
  fields : list TextField.props;
  button : Button.props;
  alert : option string;
}.

Record ParameterDefinition : Type := {
  name : string;
  label : string;
  type : option string;
}.

(** ** The form, as in [components/WaterQualityForm.jsx] *)

Module FormV1.

Definition handleChange (name value : string) : Task unit :=
  formData ← read formData;
  setFormData
    (<[name := if truthy (Str value) then Num (Js.parseFloat value) else Null]>
       formData).

Definition handleSubmit (onResult : EvaluationResult -> Task unit) : Task unit :=
  emit PreventDefault;;
  setLoading true;;
  setError "";;
  try_finally
    (try_catch
       (formData ← read formData;
        result ← evaluateWaterQuality formData;
        onResult result)
       (fun err => setError (message err)))
    (setLoading false).

Definition parameters : list ParameterDefinition :=
  [ {| name := "Temperature"; label := "Temperature (°C)"; type := Some "number" |};
    {| name := "pH"; label := "pH"; type := Some "number" |};
    {| name := "Turbidity"; label := "Turbidity (NTU)"; type := Some "number" |};
    {| name := "DissolvedOxygen"; label := "Dissolved Oxygen (mg/L)"; type := Some "number" |};
    {| name := "Conductivity"; label := "Conductivity (µS/cm)"; type := Some "number" |};
    {| name := "TotalDissolvedSolids"; label := "Total Dissolved Solids (mg/L)"; type := Some "number" |};
    {| name := "Nitrate"; label := "Nitrate (mg/L)"; type := Some "number" |};
    {| name := "Phosphate"; label := "Phosphate (mg/L)"; type := Some "number" |};
    {| name := "TotalColiforms"; label := "Total Coliforms (CFU/100mL)"; type := Some "number" |};
    {| name := "Ecoli"; label := "E. coli (CFU/100mL)"; type := Some "number" |};
    {| name := "BOD"; label := "BOD (mg/L)"; type := Some "number" |};
    {| name := "COD"; label := "COD (mg/L)"; type := Some "number" |};
    {| name := "Hardness"; label := "Hardness (mg/L as CaCO3)"; type := Some "number" |};
    {| name := "Alkalinity"; label := "Alkalinity (mg/L as CaCO3)"; type := Some "number" |};
    {| name := "Iron"; label := "Iron (mg/L)"; type := Some "number" |} ].

(** The [return] of the component: one [TextField] per parameter with
    [value={formData[param.name] || ''}], the button, the alert. *)
Definition render (w : World) : FormView :=
  {| fields :=
       (fun param =>
          {| TextField.label := label param;
             TextField.name := name param;
             TextField.type := type param;
             TextField.value := Some (or_value (formData w !! name param) (Str "")) |})
         <$> parameters;
     button :=
       {| Button.disabled := loading w;
          Button.children :=
            if loading w then "Evaluating..." else "Evaluate Water Quality" |};
     alert := if truthy (Str (error w)) then Some (error w) else None |}.

End FormV1.

(** ** The form, as in the later revisions (the empty string is kept as
    the marker of a cleared field and turned into [null] on submission) *)

Module FormV2.

Definition handleChange (name value : string) : Task unit :=
  formData ← read formData;
  setFormData
    (<[name := if strict_eq (Str value) (Str "") then Str ""
               else Num (Js.parseFloat value)]>
       formData).

(** [Object.fromEntries(Object.entries(formData).map(...))] *)
Definition processedFormData (formData : gmap string jsval) : gmap string jsval :=
  list_to_map
    ((fun '(key, value) =>
        (key, if strict_eq value (Str "") then Null else value))
       <$> map_to_list formData).

Definition handleSubmit (onResult : EvaluationResult -> Task unit) : Task unit :=
  emit PreventDefault;;
  setLoading true;;
  setError "";;
  try_finally
    (try_catch
       (formData ← read formData;
        result ← evaluateWaterQuality (processedFormData formData);
        onResult result)
       (fun err => setError (message err)))
    (setLoading false).

(** First revision: the input type is the literal ["number"] in the
    markup, the definitions carry none. *)
Definition parameters : list ParameterDefinition :=
  [ {| name := "Temperature"; label := "Temperature (°C)"; type := None |};
    {| name := "pH"; label := "pH"; type := None |};
    {| name := "Turbidity"; label := "Turbidity (NTU)"; type := None |};
    {| name := "DissolvedOxygen"; label := "Dissolved Oxygen (mg/L)"; type := None |};
    {| name := "Conductivity"; label := "Conductivity (µS/cm)"; type := None |};
    {| name := "TotalDissolvedSolids"; label := "Total Dissolved Solids (mg/L)"; type := None |};
    {| name := "Nitrate"; label := "Nitrate (mg/L)"; type := None |};
    {| name := "Phosphate"; label := "Phosphate (mg/L)"; type := None |};
    {| name := "TotalColiforms"; label := "Total Coliforms (CFU/100mL)"; type := None |};
    {| name := "Ecoli"; label := "E. coli (CFU/100mL)"; type := None |};
    {| name := "BOD"; label := "BOD (mg/L)"; type := None |};
    {| name := "COD"; label := "COD (mg/L)"; type := None |};
    {| name := "Hardness"; label := "Hardness (mg/L as CaCO3)"; type := None |};
    {| name := "Alkalinity"; label := "Alkalinity (mg/L as CaCO3)"; type := None |};
    {| name := "Iron"; label := "Iron (mg/L)"; type := None |} ].

(** Second revision: same handlers, text inputs. *)
Definition parameters_text : list ParameterDefinition :=
  [ {| name := "Temperature"; label := "Temperature (°C)"; type := Some "text" |};
    {| name := "pH"; label := "pH"; type := Some "text" |};
    {| name := "Turbidity"; label := "Turbidity (NTU)"; type := Some "text" |};
    {| name := "DissolvedOxygen"; label := "Dissolved Oxygen (mg/L)"; type := Some "text" |};
    {| name := "Conductivity"; label := "Conductivity (µS/cm)"; type := Some "text" |};
    {| name := "TotalDissolvedSolids"; label := "Total Dissolved Solids (mg/L)"; type := Some "text" |};
    {| name := "Nitrate"; label := "Nitrate (mg/L)"; type := Some "text" |};
    {| name := "Phosphate"; label := "Phosphate (mg/L)"; type := Some "text" |};
    {| name := "TotalColiforms"; label := "Total Coliforms (CFU/100mL)"; type := Some "text" |};
    {| name := "Ecoli"; label := "E. coli (CFU/100mL)"; type := Some "text" |};
    {| name := "BOD"; label := "BOD (mg/L)"; type := Some "text" |};
    {| name := "COD"; label := "COD (mg/L)"; type := Some "text" |};
    {| name := "Hardness"; label := "Hardness (mg/L as CaCO3)"; type := Some "text" |};
    {| name := "Alkalinity"; label := "Alkalinity (mg/L as CaCO3)"; type := Some "text" |};
    {| name := "Iron"; label := "Iron (mg/L)"; type := Some "text" |} ].

(** First revision: [type="number"] and [value={formData[param.name]}]. *)
Definition render (w : World) : FormView :=
  {| fields :=
       (fun param =>
          {| TextField.label := label param;
             TextField.name := name param;
             TextField.type := Some "number";
             TextField.value := formData w !! name param |})
         <$> parameters;
     button :=
       {| Button.disabled := loading w;
          Button.children :=
            if loading w then "Evaluating..." else "Evaluate Water Quality" |};
     alert := if truthy (Str (error w)) then Some (error w) else None |}.

(** Second revision: [type={param.type}] and
    [value={formData[param.name] === 0 ? '0' : formData[param.name] || ''}]. *)
Definition render_text (w : World) : FormView :=
  {| fields :=
       (fun param =>
          {| TextField.label := label param;
             TextField.name := name param;
             TextField.type := type param;
             TextField.value :=
               Some (if match formData w !! name param with
                        | Some v => strict_eq v (Num (Finite 0 0))
                        | None => false
                        end
                     then Str "0"
                     else or_value (formData w !! name param) (Str "")) |})
         <$> parameters_text;
     button :=
       {| Button.disabled := loading w;
          Button.children :=
            if loading w then "Evaluating..." else "Evaluate Water Quality" |};
     alert := if truthy (Str (error w)) then Some (error w) else None |}.

End FormV2.

(** ** [App]: holds the last evaluation result and shows the report *)

Module App.

Definition handleResult (result : EvaluationResult) : Task unit :=
  setEvaluationResult result.

(** [evaluationResult && <WaterQualityReport result={evaluationResult} />] *)
Definition WaterQualityReport_shown (w : World) : option EvaluationResult :=
  evaluationResult w.

(** [error && <Alert severity="error">{error}</Alert>] *)
Definition Alert_shown (w : World) : option string :=
  if truthy (Str (error w)) then Some (error w) else None.

(** [disabled={loading}] on the submit button *)
Definition Button_disabled (w : World) : bool := loading w.

End App.

(** ** Vocabulary of the statements *)

(** The world a task leaves behind, and how it completes. *)
Definition run {A : Type} (t : Task A) (w : World) : World := snd (t w).
Definition completion {A : Type} (t : Task A) (w : World) : Completion A := fst (t w).

(** How the environment settles the next call of [axios.post]. *)
Definition next_reply (w : World) : Settled := network w (length (sent (trace w))).

(** The failure taxonomy of the interface description, in its priority
    order: a response was received; else a request was sent; else the
    request could not be set up. *)
Inductive FailureClass : Type :=
  | ServiceError (body : ErrorBody)
  | NoResponse
  | RequestSetupFailure.

Definition spec_classify (e : Error) : FailureClass :=
  match response e, request e with
  | Some r, _ => ServiceError (data r)
  | None, Some _ => NoResponse
  | None, None => RequestSetupFailure
  end.

Definition spec_message (c : FailureClass) : string :=
  match c with
  | ServiceError body =>
      match detail body with
      | Some "" | None => "An error occurred while evaluating water quality."
      | Some s => s
      end
  | NoResponse => "The server did not respond. Please check your connection."
  | RequestSetupFailure => "An error occurred while setting up the request."
  end.

(** The world of a submission suspended at its [await]: loading is set,
    the error is cleared and the call with [body] has been made. *)
Definition submitting (body : gmap string jsval) (w : World) : World :=
  {| formData := formData w; error := ""; loading := true;
     evaluationResult := evaluationResult w;
     trace := trace w ++ [PreventDefault; SetLoading true; SetError "";
                          Post "/evaluate" body];
     network := network w |}.

(** The world after a submission whose call was rejected with [e]. *)
Definition failed (body : gmap string jsval) (e : Error) (w : World) : World :=
  {| formData := formData w;
     error := spec_message (spec_classify e);
     loading := false;
     evaluationResult := evaluationResult w;
     trace := trace w ++ [PreventDefault; SetLoading true; SetError "";
                          Post "/evaluate" body;
                          ConsoleError "Error evaluating water quality:" e;
                          SetError (spec_message (spec_classify e));
                          SetLoading false];
     network := network w |}.

(** The world after a submission under [App] whose call was fulfilled. *)
Definition succeeded (body : gmap string jsval) (r : EvaluationResult) (w : World) : World :=
  {| formData := formData w; error := ""; loading := false;
     evaluationResult := Some r;
     trace := trace w ++ [PreventDefault; SetLoading true; SetError "";
                          Post "/evaluate" body;
                          SetEvaluationResult r;
                          SetLoading false];
     network := network w |}.

(** Both revisions of [handleSubmit] are this task, for the payload
    each one builds from the form state. *)
Definition submit (payload_of : gmap string jsval -> gmap string jsval)
    (onResult : EvaluationResult -> Task unit) : Task unit :=
  emit PreventDefault;;
  setLoading true;;
  setError "";;
  try_finally
    (try_catch
       (formData ← read formData;
        result ← evaluateWaterQuality (payload_of formData);
        onResult result)
       (fun err => setError (message err)))
    (setLoading false).

Definition keys : list string :=
  [ "Temperature"; "pH"; "Turbidity"; "DissolvedOxygen"; "Conductivity";
    "TotalDissolvedSolids"; "Nitrate"; "Phosphate"; "TotalColiforms";
    "Ecoli"; "BOD"; "COD"; "Hardness"; "Alkalinity"; "Iron" ].

(** Sample environments and replies. *)
Definition good_result : EvaluationResult :=
  {| quality_score := Finite 825 (-1); report := "Good"; graph := "iVBORw0KGgo=" |}.

Definition invalid_pH : Error :=
  {| message := "Request failed with status code 422";
     response := Some {| status := 422;
                         data := {| detail := Some "Invalid pH value" |} |};
     request := Some ClientRequest |}.

Definition empty_detail : Error :=
  {| message := "Request failed with status code 500";
     response := Some {| status := 500; data := {| detail := Some "" |} |};
     request := Some ClientRequest |}.

Definition network_drop : Error :=
  {| message := "Network Error"; response := None; request := Some ClientRequest |}.

Definition always (s : Settled) : nat -> Settled := fun _ => s.

Definition service_up : nat -> Settled :=
  always (Fulfilled {| status := 200; data := good_result |}).

(** Fulfils the first call and drops every later one. *)
Definition up_then_down : nat -> Settled := fun k =>
  match k with
  | O => Fulfilled {| status := 200; data := good_result |}
  | S _ => Rejected network_drop
  end.

(** ** The mounted form and its events

    [App] mounts the form with [onResult={handleResult}]; the browser
    delivers change and submit events one at a time, and each handler
    runs to its end before the next event. *)
Inductive Event : Type :=
  | Change (name value : string)
  | Submit.

Definition dispatchV1 (ev : Event) : Task unit :=
  match ev with
  | Change name value => FormV1.handleChange name value
  | Submit => FormV1.handleSubmit App.handleResult
  end.

Definition dispatchV2 (ev : Event) : Task unit :=
  match ev with
  | Change name value => FormV2.handleChange name value
  | Submit => FormV2.handleSubmit App.handleResult
  end.

Fixpoint replay (dispatch : Event -> Task unit) (evs : list Event) (w : World) : World :=
  match evs with
  | [] => w
  | ev :: evs' => replay dispatch evs' (run (dispatch ev) w)
  end.

Definition is_Submit (ev : Event) : bool :=
  match ev with Submit => true | Change _ _ => false end.

(** The value a field of a rendered form shows. *)
Definition shown (v : FormView) (field : string) : option (option jsval) :=
  TextField.value <$> List.find (fun f => bool_decide (TextField.name f = field)) (fields v).

(** A value the wire format allows: [null] or a number. *)
Definition wire_value (v : jsval) : Prop :=
  match v with
  | Null | Num _ => True
  | Str _ => False
  end.

(** The body of the latest fulfilled call among the first [k] calls, and
    the message owed to the latest of them. *)
Fixpoint last_success (net : nat -> Settled) (k : nat) : option EvaluationResult :=
  match k with
  | O => None
  | S k' =>
      match net k' with
      | Fulfilled r => Some (data r)
      | Rejected _ => last_success net k'
      end
  end.

Definition last_error (net : nat -> Settled) (k : nat) : string :=
  match k with
  | O => ""
  | S k' =>
      match net k' with
      | Fulfilled _ => ""
      | Rejected e => spec_message (spec_classify e)
      end
  end.

(** * Properties *)

Example parseFloat_7_2 : Js.parseFloat "7.2" = Finite 72 (-1).
Proof. reflexivity. Qed.
Example parseFloat_0 : Js.parseFloat "0" = Finite 0 0.
Proof. reflexivity. Qed.
Example parseFloat_abc : Js.parseFloat "abc" = NaN.
Proof. reflexivity. Qed.
Example parseFloat_minus : Js.parseFloat "-" = NaN.
Proof. reflexivity. Qed.
Example parseFloat_3_dot : Js.parseFloat "3." = Finite 3 0.
Proof. reflexivity. Qed.
Example parseFloat_misc :
  Js.parseFloat " -12.50e3xyz" = Finite (-125) 2 /\
  Js.parseFloat ".5" = Finite 5 (-1) /\
  Js.parseFloat "." = NaN /\
  Js.parseFloat "1e" = Finite 1 0 /\
  Js.parseFloat "-Infinity" = Infinity true /\
  Js.parseFloat "" = NaN /\
  Js.parseFloat "7.20" = Finite 72 (-1) /\
  Js.parseFloat "-0" = Finite 0 0.
Proof. repeat split; reflexivity. Qed.

(** ** The monad and the trace *)

Lemma sent_snoc (t : list Effect) (e : Effect) :
  sent (t ++ [e]) = sent t ++ sent [e].
Proof. unfold sent. apply omap_app. Qed.

Lemma sent_app (t u : list Effect) : sent (t ++ u) = sent t ++ sent u.
Proof. unfold sent. apply omap_app. Qed.

(** ** The evaluation client *)

Lemma evaluateWaterQuality_fulfilled (body : gmap string jsval) (w : World) r :
  next_reply w = Fulfilled r ->
  evaluateWaterQuality body w = (Normal (data r), log (Post "/evaluate" body) w).
Proof.
  unfold next_reply. intros H.
  unfold evaluateWaterQuality, try_catch, mbind, Task_bind, axios_post.
  rewrite H. reflexivity.
Qed.

Lemma evaluateWaterQuality_rejected (body : gmap string jsval) (w : World) e :
  next_reply w = Rejected e ->
  evaluateWaterQuality body w =
    (Throw (new_Error (spec_message (spec_classify e))),
     log (ConsoleError "Error evaluating water quality:" e)
       (log (Post "/evaluate" body) w)).
Proof.
  unfold next_reply. intros H.
  unfold evaluateWaterQuality, try_catch, mbind, Task_bind, axios_post.
  rewrite H. unfold spec_classify, spec_message, emit, throw.
  destruct (response e) as [r|].
  - destruct (detail (data r)) as [[|c s]|]; reflexivity.
  - destruct (request e); reflexivity.
Qed.

(** ** Submission, for any payload construction *)

Section Submission.
Variable payload_of : gmap string jsval -> gmap string jsval.

Lemma next_reply_prelude (w : World) :
  next_reply
    (run (emit PreventDefault;; setLoading true;; setError "" : Task unit) w)
  = next_reply w.
Proof.
  unfold next_reply, run. simpl.
  rewrite !sent_snoc. simpl. rewrite !app_nil_r. reflexivity.
Qed.

Lemma submit_fulfilled onResult (w : World) r :
  next_reply w = Fulfilled r ->
  submit payload_of onResult w =
    try_finally
      (try_catch (onResult (data r)) (fun err => setError (message err)))
      (setLoading false)
      (submitting (payload_of (formData w)) w).
Proof.
  intros H. rewrite <- next_reply_prelude in H.
  unfold submit, try_finally, try_catch, mbind, Task_bind at 1 2 3.
  simpl. unfold Task_bind at 1. unfold read at 1. simpl.
  unfold Task_bind at 1.
  rewrite (evaluateWaterQuality_fulfilled _ _ _ H).
  unfold submitting, log, run. simpl. rewrite <- !app_assoc. reflexivity.
Qed.

Lemma submit_rejected onResult (w : World) e :
  next_reply w = Rejected e ->
  submit payload_of onResult w = (Normal tt, failed (payload_of (formData w)) e w).
Proof.
  intros H. rewrite <- next_reply_prelude in H.
  unfold submit, try_finally, try_catch, mbind, Task_bind at 1 2 3.
  simpl. unfold Task_bind at 1. unfold read at 1. simpl.
  unfold Task_bind at 1.
  rewrite (evaluateWaterQuality_rejected _ _ _ H).
  unfold failed, log, run. simpl. rewrite <- !app_assoc. reflexivity.
Qed.

Lemma submit_App_fulfilled (w : World) r :
  next_reply w = Fulfilled r ->
  submit payload_of App.handleResult w =
    (Normal tt, succeeded (payload_of (formData w)) (data r) w).
Proof.
  intros H. rewrite (submit_fulfilled _ _ _ H).
  unfold succeeded, submitting. cbn. unfold log. cbn.
  rewrite <- !app_assoc. reflexivity.
Qed.

End Submission.

Lemma submit_sends_once payload_of (w : World) :
  sent (trace (run (submit payload_of App.handleResult) w)) =
    sent (trace w) ++ [("/evaluate", payload_of (formData w))].
Proof.
  unfold run. destruct (next_reply w) as [r|e] eqn:H.
  - rewrite (submit_App_fulfilled _ _ _ H). simpl. by rewrite sent_app.
  - rewrite (submit_rejected _ _ _ _ H). simpl. by rewrite sent_app.
Qed.

Lemma submit_error payload_of (w : World) :
  error (run (submit payload_of App.handleResult) w) =
    match next_reply w with
    | Fulfilled _ => ""
    | Rejected e => spec_message (spec_classify e)
    end.
Proof.
  unfold run. destruct (next_reply w) as [r|e] eqn:H.
  - by rewrite (submit_App_fulfilled _ _ _ H).
  - by rewrite (submit_rejected _ _ _ _ H).
Qed.

(** ** The two revisions of the form *)

Lemma FormV1_handleSubmit_submit : FormV1.handleSubmit = submit (fun d => d).
Proof. reflexivity. Qed.

Lemma FormV2_handleSubmit_submit : FormV2.handleSubmit = submit FormV2.processedFormData.
Proof. reflexivity. Qed.

(** Rebuilding the object from its mapped entries maps its values. *)
Lemma processedFormData_fmap (d : gmap string jsval) :
  FormV2.processedFormData d =
    (fun value => if strict_eq value (Str "") then Null else value) <$> d.
Proof.
  unfold FormV2.processedFormData.
  set (f := fun value : jsval => if strict_eq value (Str "") then Null else value).
  transitivity (list_to_map (prod_map id f <$> map_to_list d) : gmap string jsval).
  - f_equal. apply list_fmap_ext. by intros i [k v] _.
  - by rewrite list_to_map_fmap, list_to_map_to_list.
Qed.

Lemma processedFormData_lookup (d : gmap string jsval) (key : string) :
  FormV2.processedFormData d !! key =
    (fun value => if strict_eq value (Str "") then Null else value) <$> d !! key.
Proof. by rewrite processedFormData_fmap, lookup_fmap. Qed.

Lemma FormV1_handleChange_formData (w : World) (name value : string) :
  formData (run (FormV1.handleChange name value) w) =
    <[name := if decide (value = "") then Null else Num (Js.parseFloat value)]>
      (formData w).
Proof. unfold run. simpl. by destruct value. Qed.

Lemma FormV2_handleChange_formData (w : World) (name value : string) :
  formData (run (FormV2.handleChange name value) w) =
    <[name := if decide (value = "") then Str "" else Num (Js.parseFloat value)]>
      (formData w).
Proof. unfold run. simpl. by destruct value. Qed.

Lemma FormV1_handleChange_sent (w : World) (name value : string) :
  sent (trace (run (FormV1.handleChange name value) w)) = sent (trace w).
Proof. unfold run. simpl. rewrite sent_snoc. simpl. apply app_nil_r. Qed.

Lemma FormV2_handleChange_sent (w : World) (name value : string) :
  sent (trace (run (FormV2.handleChange name value) w)) = sent (trace w).
Proof. unfold run. simpl. rewrite sent_snoc. simpl. apply app_nil_r. Qed.

Lemma FormV1_handleChange_next_reply (w : World) (name value : string) :
  next_reply (run (FormV1.handleChange name value) w) = next_reply w.
Proof. unfold next_reply. by rewrite FormV1_handleChange_sent. Qed.

Lemma FormV2_handleChange_next_reply (w : World) (name value : string) :
  next_reply (run (FormV2.handleChange name value) w) = next_reply w.
Proof. unfold next_reply. by rewrite FormV2_handleChange_sent. Qed.

Lemma parseFloat_empty : Js.parseFloat "" = NaN.
Proof. reflexivity. Qed.

(** ** Field changes and the payload *)

(** C3 (as amended). The field-change handler parses at once: under the
    changed name it stores [parseFloat value], a number, whenever
    [value] is non-empty, and the marker of an empty field otherwise
    ([null] in the first revision, [''] in the later ones); every other
    entry and every other cell of the state is left as it was. *)
Theorem C3_handleChange_parses_at_once (w : World) (name value : string) :
  let w1 := run (FormV1.handleChange name value) w in
  let w2 := run (FormV2.handleChange name value) w in
  (formData w1 =
     <[name := if decide (value = "") then Null else Num (Js.parseFloat value)]>
       (formData w)
   /\ error w1 = error w /\ loading w1 = loading w
   /\ evaluationResult w1 = evaluationResult w)
  /\
  (formData w2 =
     <[name := if decide (value = "") then Str "" else Num (Js.parseFloat value)]>
       (formData w)
   /\ error w2 = error w /\ loading w2 = loading w
   /\ evaluationResult w2 = evaluationResult w).
Proof.
  cbv zeta. rewrite FormV1_handleChange_formData, FormV2_handleChange_formData.
  repeat split.
Qed.

(** C3 as stated fails: typing ["3."] leaves the number 3 in the form
    state, not the string, and typing ["-"] leaves [NaN]. *)
Lemma C3_counterexample_raw_string_not_kept :
  let w1 := run (FormV1.handleChange "pH" "3.") (initial service_up) in
  let w2 := run (FormV2.handleChange "pH" "-") (initial service_up) in
  ~ (formData w1 !! "pH" = Some (Str "3.") \/ formData w2 !! "pH" = Some (Str "-"))
  /\ formData w1 !! "pH" = Some (Num (Finite 3 0))
  /\ formData w2 !! "pH" = Some (Num NaN).
Proof.
  cbv zeta. split; [|split]; [|reflexivity|reflexivity].
  intros [H|H]; vm_compute in H; discriminate H.
Qed.

(** C4. A value that parses as a number reaches the payload as that
    number: the change handler stores [parseFloat value] under the
    field's name, a submission sends every stored number unchanged under
    its key, and so the one call made by a submission that follows the
    change carries [parseFloat value] for that field. *)
Theorem C4_parsed_number_reaches_payload (w : World) (name value : string) :
  Js.parseFloat value <> NaN ->
  let n := Js.parseFloat value in
  let w1 := run (FormV1.handleChange name value) w in
  let w2 := run (FormV2.handleChange name value) w in
  (formData w1 !! name = Some (Num n)
   /\ exists body,
        sent (trace (run (FormV1.handleSubmit App.handleResult) w1)) =
          sent (trace w) ++ [("/evaluate", body)]
        /\ body !! name = Some (Num n))
  /\
  (formData w2 !! name = Some (Num n)
   /\ exists body,
        sent (trace (run (FormV2.handleSubmit App.handleResult) w2)) =
          sent (trace w) ++ [("/evaluate", body)]
        /\ body !! name = Some (Num n)).
Proof.
  intros Hn. cbv zeta.
  assert (Hv : value <> "") by (intros ->; by apply Hn).
  rewrite FormV1_handleSubmit_submit, FormV2_handleSubmit_submit.
  rewrite !submit_sends_once.
  rewrite FormV1_handleChange_sent, FormV2_handleChange_sent.
  rewrite FormV1_handleChange_formData, FormV2_handleChange_formData.
  destruct (decide (value = "")) as [|_]; [done|].
  repeat split.
  - apply lookup_insert_eq.
  - eexists; split; [reflexivity|]. apply lookup_insert_eq.
  - apply lookup_insert_eq.
  - eexists; split; [reflexivity|].
    rewrite processedFormData_lookup, lookup_insert_eq. simpl.
    destruct (Js.parseFloat value); done.
Qed.

Lemma C4_witness_7_2 :
  Js.parseFloat "7.2" <> NaN /\
  exists body,
    sent (trace (run (FormV2.handleSubmit App.handleResult)
                   (run (FormV2.handleChange "pH" "7.2") (initial service_up)))) =
      [("/evaluate", body)]
    /\ body !! "pH" = Some (Num (Finite 72 (-1))).
Proof.
  split; [discriminate|].
  apply (C4_parsed_number_reaches_payload (initial service_up) "pH" "7.2").
  discriminate.
Defined.

(** A submission sends stored numbers, zero included, as they are. *)
Lemma stored_number_is_sent (w : World) (key : string) (n : number) :
  formData w !! key = Some (Num n) ->
  FormV2.processedFormData (formData w) !! key = Some (Num n).
Proof.
  intros H. rewrite processedFormData_lookup, H. simpl. by destruct n.
Qed.

(** C1 (as amended). No validation takes place. A non-empty string that
    does not parse is stored as [NaN] by the change handler, and the
    submission that follows makes exactly one call to the evaluation
    client, whose payload carries [NaN] under that field; the error
    shown afterwards is the one of the evaluation call, if any. *)
Theorem C1_unparsable_input_is_sent_as_NaN (w : World) (name value : string) :
  value <> "" ->
  Js.parseFloat value = NaN ->
  let w1 := run (FormV1.handleChange name value) w in
  let w2 := run (FormV2.handleChange name value) w in
  (formData w1 !! name = Some (Num NaN)
   /\ (exists body,
         sent (trace (run (FormV1.handleSubmit App.handleResult) w1)) =
           sent (trace w1) ++ [("/evaluate", body)]
         /\ body !! name = Some (Num NaN))
   /\ error (run (FormV1.handleSubmit App.handleResult) w1) =
        match next_reply w with
        | Fulfilled _ => ""
        | Rejected e => spec_message (spec_classify e)
        end)
  /\
  (formData w2 !! name = Some (Num NaN)
   /\ (exists body,
         sent (trace (run (FormV2.handleSubmit App.handleResult) w2)) =
           sent (trace w2) ++ [("/evaluate", body)]
         /\ body !! name = Some (Num NaN))
   /\ error (run (FormV2.handleSubmit App.handleResult) w2) =
        match next_reply w with
        | Fulfilled _ => ""
        | Rejected e => spec_message (spec_classify e)
        end).
Proof.
  intros Hv Hn. cbv zeta.
  rewrite FormV1_handleSubmit_submit, FormV2_handleSubmit_submit.
  rewrite !submit_sends_once, !submit_error.
  rewrite FormV1_handleChange_next_reply, FormV2_handleChange_next_reply.
  rewrite FormV1_handleChange_formData, FormV2_handleChange_formData.
  destruct (decide (value = "")) as [|_]; [done|]. rewrite Hn.
  repeat split.
  - apply lookup_insert_eq.
  - eexists; split; [reflexivity|]. apply lookup_insert_eq.
  - apply lookup_insert_eq.
  - eexists; split; [reflexivity|].
    by rewrite processedFormData_lookup, lookup_insert_eq.
Qed.

Lemma C1_witness_abc :
  let w1 := run (FormV1.handleChange "pH" "abc") (initial service_up) in
  formData w1 !! "pH" = Some (Num NaN)
  /\ exists body,
       sent (trace (run (FormV1.handleSubmit App.handleResult) w1)) =
         sent (trace w1) ++ [("/evaluate", body)]
       /\ body !! "pH" = Some (Num NaN).
Proof.
  cbv zeta.
  destruct (C1_unparsable_input_is_sent_as_NaN (initial service_up) "pH" "abc")
    as [(H1 & H2 & _) _]; [discriminate|reflexivity|].
  split; [exact H1|exact H2].
Defined.

(** C1 as stated fails: with ["abc"] typed into a field, the submission
    is not stopped; it calls the evaluation client with a payload that
    holds [NaN], and when the service answers no error is shown. *)
Lemma C1_counterexample_NaN_dispatched :
  let w1 := run (FormV1.handleChange "pH" "abc") (initial service_up) in
  let w1' := run (FormV1.handleSubmit App.handleResult) w1 in
  let w2 := run (FormV2.handleChange "pH" "abc") (initial service_up) in
  let w2' := run (FormV2.handleSubmit App.handleResult) w2 in
  ~ (sent (trace w1') = sent (trace w1) \/ error w1' <> "")
  /\ ~ (sent (trace w2') = sent (trace w2) \/ error w2' <> "")
  /\ sent (trace w1') = [("/evaluate", {[ "pH" := Num NaN ]})]
  /\ sent (trace w2') = [("/evaluate", {[ "pH" := Num NaN ]})].
Proof.
  cbv zeta. repeat split.
  - intros [H|H]; vm_compute in H; [discriminate H|by apply H].
  - intros [H|H]; vm_compute in H; [discriminate H|by apply H].
Qed.

Example zero_reaches_payload_as_zero :
  sent (trace (run (FormV1.handleSubmit App.handleResult)
                 (run (FormV1.handleChange "Iron" "0") (initial service_up)))) =
    [("/evaluate", {[ "Iron" := Num (Finite 0 0) ]})]
  /\ sent (trace (run (FormV2.handleSubmit App.handleResult)
                    (run (FormV2.handleChange "Iron" "0") (initial service_up)))) =
       [("/evaluate", {[ "Iron" := Num (Finite 0 0) ]})].
Proof. split; reflexivity. Qed.

(** C2 (as amended). A field that was emptied is sent as [null]; a field
    that never received a change has no entry in the form state and
    none in the payload: its key is left out. In neither case is a
    number (so neither [0] nor [NaN]) sent for it. *)
Theorem C2_emptied_is_null_untouched_is_omitted (w : World) (key : string) :
  (* a field emptied by the user *)
  (let w1 := run (FormV1.handleChange key "") w in
   exists body,
     sent (trace (run (FormV1.handleSubmit App.handleResult) w1)) =
       sent (trace w1) ++ [("/evaluate", body)]
     /\ body !! key = Some Null)
  /\
  (let w2 := run (FormV2.handleChange key "") w in
   formData w2 !! key = Some (Str "")
   /\ exists body,
        sent (trace (run (FormV2.handleSubmit App.handleResult) w2)) =
          sent (trace w2) ++ [("/evaluate", body)]
        /\ body !! key = Some Null)
  /\
  (* a field without an entry *)
  (formData w !! key = None ->
   (exists body,
      sent (trace (run (FormV1.handleSubmit App.handleResult) w)) =
        sent (trace w) ++ [("/evaluate", body)]
      /\ body !! key = None)
   /\
   (exists body,
      sent (trace (run (FormV2.handleSubmit App.handleResult) w)) =
        sent (trace w) ++ [("/evaluate", body)]
      /\ body !! key = None)).
Proof.
  cbv zeta.
  rewrite FormV1_handleSubmit_submit, FormV2_handleSubmit_submit.
  rewrite !submit_sends_once.
  rewrite FormV1_handleChange_formData, FormV2_handleChange_formData.
  split; [|split; [split|]].
  - eexists; split; [reflexivity|]. apply lookup_insert_eq.
  - apply lookup_insert_eq.
  - eexists; split; [reflexivity|].
    by rewrite processedFormData_lookup, lookup_insert_eq.
  - intros Hnone. split; eexists; (split; [reflexivity|]).
    + exact Hnone.
    + by rewrite processedFormData_lookup, Hnone.
Qed.

Lemma C2_witness_untouched_pH :
  formData (initial service_up) !! "pH" = None
  /\ (exists body,
        sent (trace (run (FormV1.handleSubmit App.handleResult) (initial service_up))) =
          [("/evaluate", body)]
        /\ body !! "pH" = None)
  /\ (exists body,
        sent (trace (run (FormV2.handleSubmit App.handleResult) (initial service_up))) =
          [("/evaluate", body)]
        /\ body !! "pH" = None).
Proof.
  split; [reflexivity|].
  apply (C2_emptied_is_null_untouched_is_omitted (initial service_up) "pH").
  reflexivity.
Defined.

(** C2 as stated fails for a field that was never touched: submitting
    the fresh form sends the empty object, which has no ["pH"] entry. *)
Lemma C2_counterexample_absent_key_omitted :
  let w := initial service_up in
  In "pH" keys
  /\ formData w !! "pH" = None
  /\ sent (trace (run (FormV1.handleSubmit App.handleResult) w)) = [("/evaluate", ∅)]
  /\ sent (trace (run (FormV2.handleSubmit App.handleResult) w)) = [("/evaluate", ∅)]
  /\ ~ ((∅ : gmap string jsval) !! "pH" = Some Null).
Proof.
  cbv zeta. split; [|split; [|split; [|split]]].
  - simpl. tauto.
  - reflexivity.
  - reflexivity.
  - reflexivity.
  - rewrite lookup_empty. discriminate.
Qed.

(** ** Failures of the evaluation call *)

(** C5 (as amended). When the call is rejected with a response, the
    error thrown by the client, and with it the error shown by the form,
    is the [detail] string of the response body when the body has one
    and it is not empty; it is the fallback text when the body has no
    [detail] or an empty one. *)
Theorem C5_service_error_message
    (w : World) (body : gmap string jsval) (e : Error) (r : Response ErrorBody) :
  next_reply w = Rejected e ->
  response e = Some r ->
  exists msg,
    completion (evaluateWaterQuality body) w = Throw (new_Error msg)
    /\ (forall onResult, error (run (FormV1.handleSubmit onResult) w) = msg)
    /\ (forall onResult, error (run (FormV2.handleSubmit onResult) w) = msg)
    /\ (forall s, detail (data r) = Some s -> s <> "" -> msg = s)
    /\ (detail (data r) = None \/ detail (data r) = Some "" ->
        msg = "An error occurred while evaluating water quality.").
Proof.
  intros H Hr. exists (spec_message (spec_classify e)).
  unfold completion, run.
  rewrite (evaluateWaterQuality_rejected _ _ _ H).
  rewrite FormV1_handleSubmit_submit, FormV2_handleSubmit_submit.
  split; [reflexivity|].
  split; [intros; by rewrite (submit_rejected _ _ _ _ H)|].
  split; [intros; by rewrite (submit_rejected _ _ _ _ H)|].
  unfold spec_classify. rewrite Hr. simpl. split.
  - intros s -> Hs. by destruct s.
  - intros [->| ->]; reflexivity.
Qed.

Lemma C5_witness_invalid_pH :
  exists msg,
    completion (evaluateWaterQuality ∅) (initial (always (Rejected invalid_pH))) =
      Throw (new_Error msg)
    /\ error (run (FormV1.handleSubmit App.handleResult)
                (initial (always (Rejected invalid_pH)))) = msg
    /\ msg = "Invalid pH value".
Proof.
  destruct (C5_service_error_message (initial (always (Rejected invalid_pH))) ∅
              invalid_pH {| status := 422; data := {| detail := Some "Invalid pH value" |} |}
              eq_refl eq_refl)
    as (msg & H1 & H2 & _ & H4 & _).
  exists msg. split; [exact H1|]. split; [apply H2|].
  apply H4; [reflexivity|discriminate].
Defined.

(** C5 as stated fails when the body's [detail] is the empty string: the
    message is then the fallback text, not the string of the body. *)
Lemma C5_counterexample_empty_detail :
  let w := initial (always (Rejected empty_detail)) in
  (exists r, response empty_detail = Some r /\ detail (data r) = Some "")
  /\ completion (evaluateWaterQuality ∅) w =
       Throw (new_Error "An error occurred while evaluating water quality.")
  /\ ~ (completion (evaluateWaterQuality ∅) w = Throw (new_Error ""))
  /\ ~ (error (run (FormV1.handleSubmit App.handleResult) w) = "").
Proof.
  cbv zeta. split; [|split; [|split]].
  - eexists; split; reflexivity.
  - reflexivity.
  - intros H; vm_compute in H; discriminate H.
  - intros H; vm_compute in H; discriminate H.
Qed.

(** C6. When the call is rejected without a response although the
    request was made, the client throws an error whose message is "The
    server did not respond. Please check your connection.", and that
    text is the error shown by the form after the submission. *)
Theorem C6_no_response_message
    (w : World) (body : gmap string jsval) (e : Error) (x : XMLHttpRequest) :
  next_reply w = Rejected e ->
  response e = None ->
  request e = Some x ->
  completion (evaluateWaterQuality body) w =
    Throw (new_Error "The server did not respond. Please check your connection.")
  /\ (forall onResult,
        error (run (FormV1.handleSubmit onResult) w) =
          "The server did not respond. Please check your connection.")
  /\ (forall onResult,
        error (run (FormV2.handleSubmit onResult) w) =
          "The server did not respond. Please check your connection.").
Proof.
  intros H Hr Hq. unfold completion, run.
  rewrite (evaluateWaterQuality_rejected _ _ _ H).
  rewrite FormV1_handleSubmit_submit, FormV2_handleSubmit_submit.
  assert (Hm : spec_message (spec_classify e) =
               "The server did not respond. Please check your connection.")
    by (unfold spec_classify; by rewrite Hr, Hq).
  rewrite Hm. split; [reflexivity|].
  split; intros; by rewrite (submit_rejected _ _ _ _ H), <- Hm.
Qed.

Lemma C6_witness_network_drop :
  completion (evaluateWaterQuality ∅) (initial (always (Rejected network_drop))) =
    Throw (new_Error "The server did not respond. Please check your connection.")
  /\ error (run (FormV1.handleSubmit App.handleResult)
              (initial (always (Rejected network_drop)))) =
       "The server did not respond. Please check your connection.".
Proof.
  destruct (C6_no_response_message (initial (always (Rejected network_drop))) ∅
              network_drop ClientRequest eq_refl eq_refl eq_refl)
    as (H1 & H2 & _).
  split; [exact H1|apply H2].
Defined.

(** C7. Every rejection of the call is turned by the client into one
    thrown error with one message, chosen in this order: a received
    response decides first (service error), else a request that was
    made (no response), else the setup failure. The client makes the
    call once and does not repeat it, and neither does a submission. *)
Theorem C7_failure_classification
    (w : World) (body : gmap string jsval) (e : Error) :
  next_reply w = Rejected e ->
  (exists msg,
     completion (evaluateWaterQuality body) w = Throw (new_Error msg)
     /\ msg = spec_message (spec_classify e)
     /\ (forall r, response e = Some r ->
           msg = or_default (detail (data r))
                   "An error occurred while evaluating water quality.")
     /\ (forall x, response e = None -> request e = Some x ->
           msg = "The server did not respond. Please check your connection.")
     /\ (response e = None -> request e = None ->
           msg = "An error occurred while setting up the request."))
  /\ sent (trace (run (evaluateWaterQuality body) w)) =
       sent (trace w) ++ [("/evaluate", body)]
  /\ (forall onResult,
        sent (trace (run (FormV1.handleSubmit onResult) w)) =
          sent (trace w) ++ [("/evaluate", formData w)]
        /\ sent (trace (run (FormV2.handleSubmit onResult) w)) =
             sent (trace w) ++ [("/evaluate", FormV2.processedFormData (formData w))]).
Proof.
  intros H. unfold completion, run.
  rewrite (evaluateWaterQuality_rejected _ _ _ H).
  split; [|split].
  - exists (spec_message (spec_classify e)).
    split; [reflexivity|]. split; [reflexivity|].
    unfold spec_classify, or_default.
    split; [|split].
    + intros r ->. simpl. by destruct (detail (data r)) as [[|c s]|].
    + by intros x -> ->.
    + by intros -> ->.
  - simpl. rewrite !sent_snoc. simpl. by rewrite app_nil_r.
  - intros onResult.
    rewrite FormV1_handleSubmit_submit, FormV2_handleSubmit_submit.
    rewrite !(submit_rejected _ _ _ _ H). simpl.
    rewrite !sent_app. simpl. done.
Qed.

Lemma C7_witness_response_wins :
  completion (evaluateWaterQuality ∅) (initial (always (Rejected invalid_pH))) =
    Throw (new_Error "Invalid pH value")
  /\ sent (trace (run (evaluateWaterQuality ∅)
                    (initial (always (Rejected invalid_pH))))) =
       [("/evaluate", ∅)].
Proof.
  destruct (C7_failure_classification (initial (always (Rejected invalid_pH))) ∅
              invalid_pH eq_refl)
    as ((msg & H1 & -> & _) & H2 & _).
  split; [exact H1|exact H2].
Defined.

(** ** The course of a submission *)

(** C8. A submission first sets loading and clears the error, then
    makes the call ([submitting] is the world at that point). When the
    call is fulfilled, the result is passed to [onResult] and loading is
    cleared; under [App] that leaves the result stored, no error and
    loading cleared. When the call is rejected, the error becomes the
    failure's message and loading is cleared. Loading is [false] after
    either outcome. *)
Theorem C8_submission_lifecycle (w : World) :
  loading (run (FormV1.handleSubmit App.handleResult) w) = false
  /\ loading (run (FormV2.handleSubmit App.handleResult) w) = false
  /\ match next_reply w with
     | Fulfilled r =>
         (forall onResult,
            FormV1.handleSubmit onResult w =
              try_finally
                (try_catch (onResult (data r)) (fun err => setError (message err)))
                (setLoading false)
                (submitting (formData w) w)
            /\ FormV2.handleSubmit onResult w =
                 try_finally
                   (try_catch (onResult (data r)) (fun err => setError (message err)))
                   (setLoading false)
                   (submitting (FormV2.processedFormData (formData w)) w))
         /\ FormV1.handleSubmit App.handleResult w =
              (Normal tt, succeeded (formData w) (data r) w)
         /\ FormV2.handleSubmit App.handleResult w =
              (Normal tt, succeeded (FormV2.processedFormData (formData w)) (data r) w)
     | Rejected e =>
         forall onResult,
           FormV1.handleSubmit onResult w = (Normal tt, failed (formData w) e w)
           /\ FormV2.handleSubmit onResult w =
                (Normal tt, failed (FormV2.processedFormData (formData w)) e w)
     end.
Proof.
  rewrite FormV1_handleSubmit_submit, FormV2_handleSubmit_submit.
  unfold run. destruct (next_reply w) as [r|e] eqn:H.
  - rewrite !(submit_App_fulfilled _ _ _ H).
    repeat split.
    + exact (submit_fulfilled (fun d => d) onResult w r H).
    + exact (submit_fulfilled FormV2.processedFormData onResult w r H).
  - rewrite !(submit_rejected _ _ _ _ H).
    repeat split.
    + exact (submit_rejected (fun d => d) onResult w e H).
    + exact (submit_rejected FormV2.processedFormData onResult w e H).
Qed.

Example submission_trace_on_success :
  trace (run (FormV1.handleSubmit App.handleResult) (initial service_up)) =
    [PreventDefault; SetLoading true; SetError ""; Post "/evaluate" ∅;
     SetEvaluationResult good_result; SetLoading false].
Proof. reflexivity. Qed.

(** C10. A failed submission leaves the result held by [App] as it was:
    whatever callback the form was given, its outcome is the world
    [failed], in which the stored result (and so the report on display)
    is unchanged, the only cells written are the error and loading, and
    the effects performed are the call, the console message and the
    setters of those two cells. *)
Theorem C10_failure_keeps_last_result (w : World) (e : Error) :
  next_reply w = Rejected e ->
  forall onResult,
    let w1 := run (FormV1.handleSubmit onResult) w in
    let w2 := run (FormV2.handleSubmit onResult) w in
    (evaluationResult w1 = evaluationResult w
     /\ App.WaterQualityReport_shown w1 = App.WaterQualityReport_shown w
     /\ formData w1 = formData w
     /\ error w1 = spec_message (spec_classify e)
     /\ loading w1 = false
     /\ trace w1 =
          trace w ++ [PreventDefault; SetLoading true; SetError "";
                      Post "/evaluate" (formData w);
                      ConsoleError "Error evaluating water quality:" e;
                      SetError (spec_message (spec_classify e));
                      SetLoading false])
    /\
    (evaluationResult w2 = evaluationResult w
     /\ App.WaterQualityReport_shown w2 = App.WaterQualityReport_shown w
     /\ formData w2 = formData w
     /\ error w2 = spec_message (spec_classify e)
     /\ loading w2 = false
     /\ trace w2 =
          trace w ++ [PreventDefault; SetLoading true; SetError "";
                      Post "/evaluate" (FormV2.processedFormData (formData w));
                      ConsoleError "Error evaluating water quality:" e;
                      SetError (spec_message (spec_classify e));
                      SetLoading false]).
Proof.
  intros H onResult. cbv zeta. unfold run, App.WaterQualityReport_shown.
  rewrite FormV1_handleSubmit_submit, FormV2_handleSubmit_submit.
  rewrite !(submit_rejected _ _ _ _ H). simpl. repeat split.
Qed.

Lemma C10_witness_success_then_drop :
  let w := run (FormV1.handleSubmit App.handleResult) (initial up_then_down) in
  let w1 := run (FormV1.handleSubmit App.handleResult) w in
  evaluationResult w = Some good_result
  /\ next_reply w = Rejected network_drop
  /\ evaluationResult w1 = Some good_result
  /\ App.WaterQualityReport_shown w1 = Some good_result
  /\ App.Alert_shown w1 =
       Some "The server did not respond. Please check your connection.".
Proof.
  cbv zeta.
  destruct (C10_failure_keeps_last_result
              (run (FormV1.handleSubmit App.handleResult) (initial up_then_down))
              network_drop eq_refl App.handleResult)
    as ((H1 & H2 & _ & H4 & _) & _).
  split; [reflexivity|]. split; [reflexivity|].
  split; [exact H1|]. split; [exact H2|].
  unfold App.Alert_shown. rewrite H4. reflexivity.
Defined.

(** ** The parameter schema *)

(** C9. In every revision the schema lists fifteen definitions whose
    names are, in this order, Temperature, pH, Turbidity,
    DissolvedOxygen, Conductivity, TotalDissolvedSolids, Nitrate,
    Phosphate, TotalColiforms, Ecoli, BOD, COD, Hardness, Alkalinity,
    Iron; the names are pairwise distinct. The schema is a constant: it
    is no cell of the state, and no handler takes or returns it. *)
Theorem C9_parameter_schema :
  name <$> FormV1.parameters = keys
  /\ name <$> FormV2.parameters = keys
  /\ name <$> FormV2.parameters_text = keys
  /\ keys =
       [ "Temperature"; "pH"; "Turbidity"; "DissolvedOxygen"; "Conductivity";
         "TotalDissolvedSolids"; "Nitrate"; "Phosphate"; "TotalColiforms";
         "Ecoli"; "BOD"; "COD"; "Hardness"; "Alkalinity"; "Iron" ]
  /\ length keys = 15%nat
  /\ NoDup keys.
Proof.
  repeat split.
  apply (bool_decide_unpack _). vm_compute. exact I.
Qed.

(** * Further properties of the code *)

(** ** Helper facts *)

Lemma run_submit payload_of (w : World) :
  run (submit payload_of App.handleResult) w =
    match next_reply w with
    | Fulfilled r => succeeded (payload_of (formData w)) (data r) w
    | Rejected e => failed (payload_of (formData w)) e w
    end.
Proof.
  unfold run. destruct (next_reply w) as [r|e] eqn:H.
  - by rewrite (submit_App_fulfilled _ _ _ H).
  - by rewrite (submit_rejected _ _ _ _ H).
Qed.

Lemma spec_message_nonempty (c : FailureClass) : spec_message c <> "".
Proof.
  destruct c as [[[[|a s]|]]| |]; simpl; discriminate.
Qed.

Lemma process_value_insert (d : gmap string jsval) (key : string) (v : jsval) :
  FormV2.processedFormData (<[key := v]> d) =
    <[key := if strict_eq v (Str "") then Null else v]> (FormV2.processedFormData d).
Proof. by rewrite !processedFormData_fmap, fmap_insert. Qed.

(** ** Field changes compose *)

(** X1. In both revisions, changes of two different fields can be made
    in either order with the same resulting form state, and of two
    changes of one field only the later one counts. *)
Theorem X1_changes_commute_last_wins (w : World) (n1 n2 v1 v2 : string) :
  (n1 <> n2 ->
   formData (run (FormV1.handleChange n2 v2) (run (FormV1.handleChange n1 v1) w)) =
     formData (run (FormV1.handleChange n1 v1) (run (FormV1.handleChange n2 v2) w))
   /\ formData (run (FormV2.handleChange n2 v2) (run (FormV2.handleChange n1 v1) w)) =
        formData (run (FormV2.handleChange n1 v1) (run (FormV2.handleChange n2 v2) w)))
  /\ formData (run (FormV1.handleChange n1 v2) (run (FormV1.handleChange n1 v1) w)) =
       formData (run (FormV1.handleChange n1 v2) w)
  /\ formData (run (FormV2.handleChange n1 v2) (run (FormV2.handleChange n1 v1) w)) =
       formData (run (FormV2.handleChange n1 v2) w).
Proof.
  rewrite !FormV1_handleChange_formData, !FormV2_handleChange_formData.
  split; [|split].
  - intros Hne. split; by apply insert_insert_ne.
  - apply insert_insert_eq.
  - apply insert_insert_eq.
Qed.

Lemma X1_witness_pH_then_Iron :
  formData (run (FormV1.handleChange "Iron" "0.3")
              (run (FormV1.handleChange "pH" "7.2") (initial service_up))) =
    formData (run (FormV1.handleChange "pH" "7.2")
                (run (FormV1.handleChange "Iron" "0.3") (initial service_up))).
Proof.
  apply (X1_changes_commute_last_wins (initial service_up) "pH" "Iron" "7.2" "0.3").
  discriminate.
Defined.

(** ** The payload built by the later revisions *)

(** X2. [processedFormData] keeps the keys of the form state, turns
    every [''] entry into [null], leaves every other entry as it is, and
    so never yields an entry that is the empty string. *)
Theorem X2_processedFormData_contract (d : gmap string jsval) (key : string) :
  dom (FormV2.processedFormData d) = dom d
  /\ (d !! key = Some (Str "") -> FormV2.processedFormData d !! key = Some Null)
  /\ (forall v, d !! key = Some v -> v <> Str "" ->
        FormV2.processedFormData d !! key = Some v)
  /\ (d !! key = None -> FormV2.processedFormData d !! key = None)
  /\ FormV2.processedFormData d !! key <> Some (Str "").
Proof.
  rewrite processedFormData_lookup, processedFormData_fmap.
  split; [apply dom_fmap_L|].
  split; [by intros ->|].
  split; [|split; [by intros ->|]].
  - intros v -> Hv. simpl. f_equal.
    destruct v as [|s|n]; [done| |by destruct n].
    simpl. case_bool_decide; congruence.
  - destruct (d !! key) as [v|]; [|done]. simpl.
    destruct v as [|s|n]; [done| |by destruct n].
    simpl. case_bool_decide; congruence.
Qed.

Lemma X2_witness_mixed_state :
  FormV2.processedFormData {[ "pH" := Str ""; "Iron" := Num (Finite 3 (-1)) ]} !! "pH"
    = Some Null
  /\ FormV2.processedFormData {[ "pH" := Str ""; "Iron" := Num (Finite 3 (-1)) ]} !! "Iron"
       = Some (Num (Finite 3 (-1)))
  /\ FormV2.processedFormData {[ "pH" := Str ""; "Iron" := Num (Finite 3 (-1)) ]} !! "BOD"
       = None.
Proof.
  pose (d := ({[ "pH" := Str ""; "Iron" := Num (Finite 3 (-1)) ]} : gmap string jsval)).
  destruct (X2_processedFormData_contract d "pH") as (_ & H1 & _).
  destruct (X2_processedFormData_contract d "Iron") as (_ & _ & H2 & _).
  destruct (X2_processedFormData_contract d "BOD") as (_ & _ & _ & H3 & _).
  split; [|split].
  - apply H1. reflexivity.
  - apply H2; [reflexivity|discriminate].
  - apply H3. reflexivity.
Defined.

(** ** The evaluation client and the state *)

(** X3. [evaluateWaterQuality] never touches the state of the
    components: whatever the outcome, the form data, the error, the
    loading flag and the stored result are as before; it adds to the
    trace one call with the data it was given, followed by one console
    message exactly when the call was rejected. *)
Theorem X3_client_leaves_state_alone (w : World) (body : gmap string jsval) :
  let w' := run (evaluateWaterQuality body) w in
  formData w' = formData w
  /\ error w' = error w
  /\ loading w' = loading w
  /\ evaluationResult w' = evaluationResult w
  /\ trace w' =
       trace w ++ Post "/evaluate" body ::
         match next_reply w with
         | Fulfilled _ => []
         | Rejected e => [ConsoleError "Error evaluating water quality:" e]
         end
  /\ match next_reply w with
     | Fulfilled r => completion (evaluateWaterQuality body) w = Normal (data r)
     | Rejected _ => exists err, completion (evaluateWaterQuality body) w = Throw err
     end.
Proof.
  cbv zeta. unfold run, completion.
  destruct (next_reply w) as [r|e] eqn:H.
  - rewrite (evaluateWaterQuality_fulfilled _ _ _ H). simpl. repeat split.
  - rewrite (evaluateWaterQuality_rejected _ _ _ H). simpl.
    repeat split; [by rewrite <- app_assoc|by eexists].
Qed.

(** ** Submissions *)

(** X4. A submission leaves the form data as it is, so submitting again
    without an edit in between sends the same payload a second time,
    whatever the outcome of the first call. *)
Theorem X4_resubmission_sends_same_payload (w : World) :
  let w1 := run (FormV1.handleSubmit App.handleResult) w in
  let w2 := run (FormV2.handleSubmit App.handleResult) w in
  formData w1 = formData w
  /\ formData w2 = formData w
  /\ sent (trace (run (FormV1.handleSubmit App.handleResult) w1)) =
       sent (trace w) ++ [("/evaluate", formData w); ("/evaluate", formData w)]
  /\ sent (trace (run (FormV2.handleSubmit App.handleResult) w2)) =
       sent (trace w) ++ [("/evaluate", FormV2.processedFormData (formData w));
                          ("/evaluate", FormV2.processedFormData (formData w))].
Proof.
  cbv zeta. rewrite FormV1_handleSubmit_submit, FormV2_handleSubmit_submit.
  assert (Hf : forall p, formData (run (submit p App.handleResult) w) = formData w).
  { intros p. rewrite run_submit. by destruct (next_reply w). }
  rewrite !submit_sends_once, !Hf, <- !app_assoc. repeat split.
Qed.

(** X5. After a submission the alert is on display exactly when the
    call was rejected: the message of a failure is never empty, and a
    fulfilled call leaves the error empty. *)
Theorem X5_alert_iff_rejected (w : World) :
  let v1 := FormV1.render (run (FormV1.handleSubmit App.handleResult) w) in
  let v2 := FormV2.render (run (FormV2.handleSubmit App.handleResult) w) in
  let v3 := FormV2.render_text (run (FormV2.handleSubmit App.handleResult) w) in
  match next_reply w with
  | Fulfilled _ => alert v1 = None /\ alert v2 = None /\ alert v3 = None
  | Rejected e =>
      exists msg, msg <> ""
        /\ alert v1 = Some msg /\ alert v2 = Some msg /\ alert v3 = Some msg
        /\ completion (evaluateWaterQuality (formData w)) w = Throw (new_Error msg)
  end.
Proof.
  cbv zeta. rewrite FormV1_handleSubmit_submit, FormV2_handleSubmit_submit.
  rewrite !run_submit. unfold completion.
  destruct (next_reply w) as [r|e] eqn:H.
  - repeat split.
  - exists (spec_message (spec_classify e)).
    rewrite (evaluateWaterQuality_rejected _ _ _ H).
    pose proof (spec_message_nonempty (spec_classify e)) as Hne.
    unfold FormV1.render, FormV2.render, FormV2.render_text. simpl.
    destruct (spec_message (spec_classify e)) as [|a s]; [done|].
    split; [discriminate|]. repeat split.
Qed.

(** ** Sequences of events *)

Lemma replay_invariant (dispatch : Event -> Task unit) (P : World -> Prop) :
  (forall ev w, P w -> P (run (dispatch ev) w)) ->
  forall evs w, P w -> P (replay dispatch evs w).
Proof.
  intros Hstep evs. induction evs as [|ev evs IH]; intros w Hw; simpl.
  - exact Hw.
  - apply IH, Hstep, Hw.
Qed.

Lemma replay_app (dispatch : Event -> Task unit) (evs evs' : list Event) (w : World) :
  replay dispatch (evs ++ evs') w = replay dispatch evs' (replay dispatch evs w).
Proof.
  revert w. induction evs as [|ev evs IH]; intros w; simpl; [done|apply IH].
Qed.

Lemma submit_formData payload_of (w : World) :
  formData (run (submit payload_of App.handleResult) w) = formData w.
Proof. rewrite run_submit. by destruct (next_reply w). Qed.

Lemma submit_network payload_of (w : World) :
  network (run (submit payload_of App.handleResult) w) = network w.
Proof. rewrite run_submit. by destruct (next_reply w). Qed.

Lemma submit_loading payload_of (w : World) :
  loading (run (submit payload_of App.handleResult) w) = false.
Proof. rewrite run_submit. by destruct (next_reply w). Qed.

Lemma submit_evaluationResult payload_of (w : World) :
  evaluationResult (run (submit payload_of App.handleResult) w) =
    match next_reply w with
    | Fulfilled r => Some (data r)
    | Rejected _ => evaluationResult w
    end.
Proof. rewrite run_submit. by destruct (next_reply w). Qed.

Lemma wire_value_processed (d : gmap string jsval) :
  map_Forall (fun _ v => v = Str "" \/ exists n, v = Num n) d ->
  map_Forall (fun _ v => wire_value v) (FormV2.processedFormData d).
Proof.
  intros Hd key v. rewrite processedFormData_lookup.
  destruct (d !! key) as [u|] eqn:Hu; [|done]. simpl. intros [= <-].
  destruct (Hd key u Hu) as [->|[n ->]]; [done|]. by destruct n.
Qed.

(** X6. Whatever events the mounted form receives, starting from its
    initial state, the form state of the first revision holds only
    [null] and numbers, and that of the later revisions only [''] and
    numbers: no raw text is ever stored. *)
Theorem X6_stored_values_invariant (net : nat -> Settled) (evs : list Event) :
  map_Forall (fun _ v => wire_value v)
    (formData (replay dispatchV1 evs (initial net)))
  /\ map_Forall (fun _ v => v = Str "" \/ exists n, v = Num n)
       (formData (replay dispatchV2 evs (initial net))).
Proof.
  split.
  - apply (replay_invariant dispatchV1
             (fun w => map_Forall (fun _ v => wire_value v) (formData w)));
      [|apply map_Forall_empty].
    intros [n v|] w Hw; cbn [dispatchV1 dispatchV2].
    + rewrite FormV1_handleChange_formData. apply map_Forall_insert_2; [|done].
      by destruct (decide (v = "")).
    + rewrite FormV1_handleSubmit_submit. by rewrite submit_formData.
  - apply (replay_invariant dispatchV2
             (fun w => map_Forall (fun _ v => v = Str "" \/ exists n, v = Num n)
                         (formData w)));
      [|apply map_Forall_empty].
    intros [n v|] w Hw; cbn [dispatchV1 dispatchV2].
    + rewrite FormV2_handleChange_formData. apply map_Forall_insert_2; [|done].
      destruct (decide (v = "")); [by left|right; by eexists].
    + rewrite FormV2_handleSubmit_submit. by rewrite submit_formData.
Qed.

(** X7. Every call the mounted form ever makes goes to ["/evaluate"]
    with a payload whose values are all [null] or numbers, in both
    revisions: no string, in particular no [''], reaches the service. *)
Theorem X7_payloads_are_null_or_number (net : nat -> Settled) (evs : list Event) :
  Forall (fun call => call.1 = "/evaluate"
                      /\ map_Forall (fun _ v => wire_value v) call.2)
    (sent (trace (replay dispatchV1 evs (initial net))))
  /\ Forall (fun call => call.1 = "/evaluate"
                         /\ map_Forall (fun _ v => wire_value v) call.2)
       (sent (trace (replay dispatchV2 evs (initial net)))).
Proof.
  split.
  - apply (replay_invariant dispatchV1
             (fun w => map_Forall (fun _ v => wire_value v) (formData w)
                       /\ Forall (fun call => call.1 = "/evaluate"
                                    /\ map_Forall (fun _ v => wire_value v) call.2)
                            (sent (trace w))));
      [|split; [apply map_Forall_empty|constructor]].
    intros [n v|] w [Hd Ht]; cbn [dispatchV1 dispatchV2].
    + rewrite FormV1_handleChange_formData, FormV1_handleChange_sent.
      split; [|done]. apply map_Forall_insert_2; [|done].
      by destruct (decide (v = "")).
    + rewrite FormV1_handleSubmit_submit, submit_formData, submit_sends_once.
      split; [done|]. apply Forall_app. split; [done|].
      by repeat constructor.
  - apply (replay_invariant dispatchV2
             (fun w => map_Forall (fun _ v => v = Str "" \/ exists n, v = Num n)
                         (formData w)
                       /\ Forall (fun call => call.1 = "/evaluate"
                                    /\ map_Forall (fun _ v => wire_value v) call.2)
                            (sent (trace w))));
      [|split; [apply map_Forall_empty|constructor]].
    intros [n v|] w [Hd Ht]; cbn [dispatchV1 dispatchV2].
    + rewrite FormV2_handleChange_formData, FormV2_handleChange_sent.
      split; [|done]. apply map_Forall_insert_2; [|done].
      destruct (decide (v = "")); [by left|right; by eexists].
    + rewrite FormV2_handleSubmit_submit, submit_formData, submit_sends_once.
      split; [done|]. apply Forall_app. split; [done|].
      repeat constructor. simpl. by apply wire_value_processed.
Qed.

(** X8. When every change event comes from one of the rendered fields
    (its name is one of the fifteen parameter names), the form state
    and every payload sent have no key outside those fifteen names. *)
Theorem X8_payload_keys_within_schema (net : nat -> Settled) (evs : list Event) :
  Forall (fun ev => match ev with
                    | Change n _ => n ∈ keys
                    | Submit => True
                    end) evs ->
  (dom (formData (replay dispatchV1 evs (initial net))) ⊆ list_to_set keys
   /\ Forall (fun call => dom call.2 ⊆ (list_to_set keys : gset string))
        (sent (trace (replay dispatchV1 evs (initial net)))))
  /\
  (dom (formData (replay dispatchV2 evs (initial net))) ⊆ list_to_set keys
   /\ Forall (fun call => dom call.2 ⊆ (list_to_set keys : gset string))
        (sent (trace (replay dispatchV2 evs (initial net))))).
Proof.
  intros Hevs.
  assert (Hgen : forall dispatch payload_of,
    (forall d, dom (payload_of d) = dom d) ->
    (forall n v w, exists x,
        formData (run (dispatch (Change n v)) w) = <[n := x]> (formData w)
        /\ sent (trace (run (dispatch (Change n v)) w)) = sent (trace w)) ->
    (forall w, run (dispatch Submit) w = run (submit payload_of App.handleResult) w) ->
    forall w,
      dom (formData w) ⊆ list_to_set keys
      /\ Forall (fun call => dom call.2 ⊆ (list_to_set keys : gset string))
           (sent (trace w)) ->
      dom (formData (replay dispatch evs w)) ⊆ list_to_set keys
      /\ Forall (fun call => dom call.2 ⊆ (list_to_set keys : gset string))
           (sent (trace (replay dispatch evs w)))).
  { intros dispatch payload_of Hdom Hchange Hsubmit.
    induction Hevs as [|ev evs Hev _ IH]; intros w [Hd Ht]; simpl; [done|].
    apply IH. destruct ev as [n v|].
    - destruct (Hchange n v w) as (x & -> & ->). split; [|done].
      rewrite dom_insert. apply union_least; [|done].
      apply singleton_subseteq_l, elem_of_list_to_set, Hev.
    - rewrite Hsubmit, submit_formData, submit_sends_once. split; [done|].
      apply Forall_app. split; [done|]. repeat constructor. simpl.
      by rewrite Hdom. }
  split.
  - apply (Hgen dispatchV1 (fun d => d)); [done| |done|].
    + intros n v w. eexists. cbn [dispatchV1 dispatchV2].
      by rewrite FormV1_handleChange_formData, FormV1_handleChange_sent.
    + split; [simpl; rewrite dom_empty_L; apply empty_subseteq|constructor].
  - apply (Hgen dispatchV2 FormV2.processedFormData).
    + intros d. rewrite processedFormData_fmap. apply dom_fmap_L.
    + intros n v w. eexists. cbn [dispatchV1 dispatchV2].
      by rewrite FormV2_handleChange_formData, FormV2_handleChange_sent.
    + done.
    + split; [simpl; rewrite dom_empty_L; apply empty_subseteq|constructor].
Qed.

Lemma X8_witness_two_fields :
  Forall (fun call => dom call.2 ⊆ (list_to_set keys : gset string))
    (sent (trace (replay dispatchV2
                    [Change "pH" "7.2"; Change "Iron" ""; Submit]
                    (initial service_up)))).
Proof.
  apply (X8_payload_keys_within_schema service_up
           [Change "pH" "7.2"; Change "Iron" ""; Submit]).
  repeat constructor; apply bool_decide_unpack; vm_compute; exact I.
Defined.

(** X9. The revisions are interchangeable for the service and the user:
    fed the same events from the initial state, the first revision and
    the later ones make the same calls with the same payloads and end
    with the same error, loading flag and stored result. Their form
    states differ only in the marker of an emptied field: the first
    revision's state is the later revisions' payload. *)
Theorem X9_revisions_send_the_same (net : nat -> Settled) (evs : list Event) :
  let w1 := replay dispatchV1 evs (initial net) in
  let w2 := replay dispatchV2 evs (initial net) in
  sent (trace w1) = sent (trace w2)
  /\ error w1 = error w2
  /\ loading w1 = loading w2
  /\ evaluationResult w1 = evaluationResult w2
  /\ formData w1 = FormV2.processedFormData (formData w2).
Proof.
  cbv zeta.
  assert (Hgen : forall w1 w2,
    formData w1 = FormV2.processedFormData (formData w2) ->
    error w1 = error w2 -> loading w1 = loading w2 ->
    evaluationResult w1 = evaluationResult w2 ->
    sent (trace w1) = sent (trace w2) -> network w1 = network w2 ->
    sent (trace (replay dispatchV1 evs w1)) = sent (trace (replay dispatchV2 evs w2))
    /\ error (replay dispatchV1 evs w1) = error (replay dispatchV2 evs w2)
    /\ loading (replay dispatchV1 evs w1) = loading (replay dispatchV2 evs w2)
    /\ evaluationResult (replay dispatchV1 evs w1) =
         evaluationResult (replay dispatchV2 evs w2)
    /\ formData (replay dispatchV1 evs w1) =
         FormV2.processedFormData (formData (replay dispatchV2 evs w2))).
  { induction evs as [|ev evs IH]; intros w1 w2 Hd He Hl Hr Hs Hn; simpl; [done|].
    destruct ev as [n v|]; cbn [dispatchV1 dispatchV2].
    - apply IH; try done.
      + rewrite FormV1_handleChange_formData, FormV2_handleChange_formData.
        rewrite process_value_insert, Hd.
        destruct (decide (v = "")); [done|]. by destruct (Js.parseFloat v).
      + by rewrite FormV1_handleChange_sent, FormV2_handleChange_sent.
    - assert (Hreply : next_reply w1 = next_reply w2)
        by (unfold next_reply; by rewrite Hs, Hn).
      rewrite FormV1_handleSubmit_submit, FormV2_handleSubmit_submit.
      apply IH.
      + by rewrite !submit_formData.
      + by rewrite !submit_error, Hreply.
      + by rewrite !submit_loading.
      + rewrite !submit_evaluationResult, Hreply. by destruct (next_reply w2).
      + by rewrite !submit_sends_once, Hs, Hd.
      + by rewrite !submit_network. }
  apply Hgen; done.
Qed.

(** X10. The mounted form makes one call per submit event and none for
    a change event, in both revisions; and after any sequence of events
    from the initial state the loading flag is down again, so the
    submit button is enabled. *)
Theorem X10_one_call_per_submit (net : nat -> Settled) (evs : list Event) (w : World) :
  length (sent (trace (replay dispatchV1 evs w))) =
    (length (sent (trace w)) + length (filter (fun ev => is_Submit ev = true) evs))%nat
  /\ length (sent (trace (replay dispatchV2 evs w))) =
       (length (sent (trace w)) + length (filter (fun ev => is_Submit ev = true) evs))%nat
  /\ Button.disabled (button (FormV1.render (replay dispatchV1 evs (initial net)))) = false
  /\ Button.disabled (button (FormV2.render (replay dispatchV2 evs (initial net)))) = false
  /\ Button.disabled (button (FormV2.render_text (replay dispatchV2 evs (initial net))))
       = false.
Proof.
  split; [|split].
  - revert w. induction evs as [|[n v|] evs IH]; intros w; cbn [replay].
    + rewrite filter_nil. simpl. lia.
    + rewrite IH. cbn [dispatchV1]. rewrite FormV1_handleChange_sent.
      by rewrite filter_cons_False.
    + rewrite IH. cbn [dispatchV1].
      rewrite FormV1_handleSubmit_submit, submit_sends_once, length_app.
      rewrite filter_cons_True by done. simpl. lia.
  - revert w. induction evs as [|[n v|] evs IH]; intros w; cbn [replay].
    + rewrite filter_nil. simpl. lia.
    + rewrite IH. cbn [dispatchV2]. rewrite FormV2_handleChange_sent.
      by rewrite filter_cons_False.
    + rewrite IH. cbn [dispatchV2].
      rewrite FormV2_handleSubmit_submit, submit_sends_once, length_app.
      rewrite filter_cons_True by done. simpl. lia.
  - cbn [FormV1.render FormV2.render FormV2.render_text button Button.disabled].
    split; [|split; [|]].
    + apply (replay_invariant dispatchV1 (fun w => loading w = false)); [|done].
      intros [n v|] w' Hw; cbn [dispatchV1]; [done|].
      by rewrite FormV1_handleSubmit_submit, submit_loading.
    + apply (replay_invariant dispatchV2 (fun w => loading w = false)); [|done].
      intros [n v|] w' Hw; cbn [dispatchV2]; [done|].
      by rewrite FormV2_handleSubmit_submit, submit_loading.
    + apply (replay_invariant dispatchV2 (fun w => loading w = false)); [|done].
      intros [n v|] w' Hw; cbn [dispatchV2]; [done|].
      by rewrite FormV2_handleSubmit_submit, submit_loading.
Qed.

(** ** What the fields show *)

Ltac each_key H :=
  unfold keys in H;
  repeat (apply elem_of_cons in H as [->|H]);
  [..|by apply elem_of_nil in H].

Lemma shown_V1 (w : World) (n : string) :
  n ∈ keys ->
  shown (FormV1.render w) n = Some (Some (or_value (formData w !! n) (Str ""))).
Proof. intros H. each_key H; reflexivity. Qed.

Lemma shown_V2 (w : World) (n : string) :
  n ∈ keys -> shown (FormV2.render w) n = Some (formData w !! n).
Proof. intros H. each_key H; reflexivity. Qed.

Lemma shown_V2_text (w : World) (n : string) :
  n ∈ keys ->
  shown (FormV2.render_text w) n =
    Some (Some (if match formData w !! n with
                   | Some v => strict_eq v (Num (Finite 0 0))
                   | None => false
                   end
                then Str "0"
                else or_value (formData w !! n) (Str ""))).
Proof. intros H. each_key H; reflexivity. Qed.








(** X13. Whatever the state, each revision renders one field per
    parameter, in the order of the schema, with the input type of its
    revision. A field that never received a change shows the empty
    string in the first and in the text-input revision, while the
    revision in between passes it no value at all. *)
Theorem X13_rendered_fields (w : World) (n : string) :
  TextField.name <$> fields (FormV1.render w) = keys
  /\ TextField.name <$> fields (FormV2.render w) = keys
  /\ TextField.name <$> fields (FormV2.render_text w) = keys
  /\ TextField.type <$> fields (FormV1.render w) = replicate 15 (Some "number")
  /\ TextField.type <$> fields (FormV2.render w) = replicate 15 (Some "number")
  /\ TextField.type <$> fields (FormV2.render_text w) = replicate 15 (Some "text")
  /\ (n ∈ keys -> formData w !! n = None ->
      shown (FormV1.render w) n = Some (Some (Str ""))
      /\ shown (FormV2.render w) n = Some None
      /\ shown (FormV2.render_text w) n = Some (Some (Str ""))).
Proof.
  repeat (split; [reflexivity|]).
  intros Hn Hnone.
  by rewrite (shown_V1 _ _ Hn), (shown_V2 _ _ Hn), (shown_V2_text _ _ Hn), Hnone.
Qed.

Lemma X13_witness_fresh_form :
  shown (FormV1.render (initial service_up)) "pH" = Some (Some (Str ""))
  /\ shown (FormV2.render (initial service_up)) "pH" = Some None
  /\ shown (FormV2.render_text (initial service_up)) "pH" = Some (Some (Str "")).
Proof.
  apply (X13_rendered_fields (initial service_up) "pH");
    [apply (bool_decide_unpack _); vm_compute; exact I|reflexivity].
Defined.

(** ** The report and the error after a sequence of events *)

(** X14. After any sequence of events from the initial state, the
    result held by [App], and so the report on display, is the body of
    the latest call that was fulfilled (none before the first such
    call): rejected calls and field changes never clear or replace it.
    The error is the one owed to the latest call alone: empty when that
    call was fulfilled or none was made, the failure's message
    otherwise; field changes do not clear it. *)
Theorem X14_report_is_latest_success (net : nat -> Settled) (evs : list Event) :
  let w1 := replay dispatchV1 evs (initial net) in
  let w2 := replay dispatchV2 evs (initial net) in
  App.WaterQualityReport_shown w1 = last_success net (length (sent (trace w1)))
  /\ error w1 = last_error net (length (sent (trace w1)))
  /\ App.WaterQualityReport_shown w2 = last_success net (length (sent (trace w2)))
  /\ error w2 = last_error net (length (sent (trace w2))).
Proof.
  cbv zeta. unfold App.WaterQualityReport_shown.
  pose (P := fun w : World =>
    network w = net
    /\ evaluationResult w = last_success net (length (sent (trace w)))
    /\ error w = last_error net (length (sent (trace w)))).
  assert (Hsubmit : forall payload_of w, P w ->
            P (run (submit payload_of App.handleResult) w)).
  { intros payload_of w (Hn & Hr & He). unfold P.
    rewrite submit_network, submit_evaluationResult, submit_error, submit_sends_once.
    rewrite length_app, Nat.add_1_r. unfold next_reply. rewrite Hn. simpl.
    split; [done|]. split; [|done].
    destruct (net (length (sent (trace w)))); [done|exact Hr]. }
  assert (H1 : P (replay dispatchV1 evs (initial net))).
  { apply replay_invariant; [|done].
    intros [n v|] w Hw; cbn [dispatchV1].
    - unfold P. by rewrite FormV1_handleChange_sent.
    - rewrite FormV1_handleSubmit_submit. by apply Hsubmit. }
  assert (H2 : P (replay dispatchV2 evs (initial net))).
  { apply replay_invariant; [|done].
    intros [n v|] w Hw; cbn [dispatchV2].
    - unfold P. by rewrite FormV2_handleChange_sent.
    - rewrite FormV2_handleSubmit_submit. by apply Hsubmit. }
  destruct H1 as (_ & H1 & H1'), H2 as (_ & H2 & H2'). done.
Qed.

Example report_survives_a_dropped_call :
  let w := replay dispatchV2 [Change "pH" "7.2"; Submit; Change "pH" "abc"; Submit]
             (initial up_then_down) in
  App.WaterQualityReport_shown w = Some good_result
  /\ error w = "The server did not respond. Please check your connection."
  /\ length (sent (trace w)) = 2%nat.
Proof. repeat split. Qed.
